(** * Metal shader binding indices (render/bindings/metal_bindings.h)

    The header declares two C enumerations that fix the argument-table
    indices shared by the host-side pipeline set-up and the Metal shaders:
    [VertexInputIndex] for the vertex stage and [FragmentInputIndex] for the
    fragment stage.  This development embeds both enumerations, the integer
    value C gives each enumerator, and the handful of notions needed to talk
    about them (declaration order, value sets, integer representations,
    side-effect-free evaluation). *)

From Stdlib Require Import ZArith Lia String List.
From stdpp Require Import base decidable list finite gmap strings.
Import ListNotations.

Local Open Scope string_scope.
Local Open Scope Z_scope.

(** ** The two enumerations *)

(** [typedef enum VertexInputIndex { ... } VertexInputIndex;]
    the input locations for the Metal vertex shaders. *)
Inductive VertexInputIndex : Set :=
| VertexInputIndexMatrix     (* the transformation matrix *)
| VertexInputIndexVertices   (* the vertices to render *)
| VertexTextureMatrix.       (* the texture transformation matrix *)

(** [typedef enum FragmentInputIndex { ... } FragmentInputIndex;]
    the input locations for the Metal fragment shaders. *)
Inductive FragmentInputIndex : Set :=
| FragmentIndexTexture           (* the texture to render *)
| FragmentIndexEraseTexture      (* the eraser texture to render *)
| FragmentIndexClipMaskTexture.  (* the clip mask texture *)

(** The integer an enumerator stands for: the conversion C applies when a
    value of the enumerated type is used as an index. *)
Definition VertexInputIndex_int (v : VertexInputIndex) : Z :=
  match v with
  | VertexInputIndexMatrix   => 0
  | VertexInputIndexVertices => 1
  | VertexTextureMatrix      => 2
  end.

Definition FragmentInputIndex_int (f : FragmentInputIndex) : Z :=
  match f with
  | FragmentIndexTexture         => 0
  | FragmentIndexEraseTexture    => 1
  | FragmentIndexClipMaskTexture => 2
  end.

(** The identifier each enumerator is spelled with in the header. *)
Definition VertexInputIndex_name (v : VertexInputIndex) : string :=
  match v with
  | VertexInputIndexMatrix   => "VertexInputIndexMatrix"
  | VertexInputIndexVertices => "VertexInputIndexVertices"
  | VertexTextureMatrix      => "VertexTextureMatrix"
  end.

Definition FragmentInputIndex_name (f : FragmentInputIndex) : string :=
  match f with
  | FragmentIndexTexture         => "FragmentIndexTexture"
  | FragmentIndexEraseTexture    => "FragmentIndexEraseTexture"
  | FragmentIndexClipMaskTexture => "FragmentIndexClipMaskTexture"
  end.

#[global] Instance VertexInputIndex_eq_dec : EqDecision VertexInputIndex.
Proof. solve_decision. Defined.

#[global] Instance FragmentInputIndex_eq_dec : EqDecision FragmentInputIndex.
Proof. solve_decision. Defined.

(** Members in declaration order. *)
Definition VertexInputIndex_members : list VertexInputIndex :=
  [VertexInputIndexMatrix; VertexInputIndexVertices; VertexTextureMatrix].

Definition FragmentInputIndex_members : list FragmentInputIndex :=
  [FragmentIndexTexture; FragmentIndexEraseTexture;
   FragmentIndexClipMaskTexture].

#[global, refine] Instance VertexInputIndex_finite : Finite VertexInputIndex :=
  {| enum := VertexInputIndex_members |}.
Proof.
  - unfold VertexInputIndex_members. compute_done.
  - intros []; unfold VertexInputIndex_members; compute_done.
Defined.

#[global, refine] Instance FragmentInputIndex_finite :
  Finite FragmentInputIndex :=
  {| enum := FragmentInputIndex_members |}.
Proof.
  - unfold FragmentInputIndex_members. compute_done.
  - intros []; unfold FragmentInputIndex_members; compute_done.
Defined.

(** Position of a member in a declaration list (the length of the list when
    it is absent). *)
Fixpoint decl_position {A} `{EqDecision A} (x : A) (l : list A) : nat :=
  match l with
  | [] => 0%nat
  | y :: l' => if decide (x = y) then 0%nat else S (decl_position x l')
  end.

(** The slot values an enumeration assigns, in declaration order and as a
    set. *)
Definition VertexInputIndex_slots : list Z :=
  VertexInputIndex_int <$> enum VertexInputIndex.

Definition FragmentInputIndex_slots : list Z :=
  FragmentInputIndex_int <$> enum FragmentInputIndex.

Definition VertexInputIndex_values : gset Z :=
  list_to_set VertexInputIndex_slots.

Definition FragmentInputIndex_values : gset Z :=
  list_to_set FragmentInputIndex_slots.

(** Converting an integer back to the enumerated type, as the cast
    [(VertexInputIndex) n] does for the values that name a member; any other
    integer names no member. *)
Definition VertexInputIndex_of_int (n : Z) : option VertexInputIndex :=
  match n with
  | 0 => Some VertexInputIndexMatrix
  | 1 => Some VertexInputIndexVertices
  | 2 => Some VertexTextureMatrix
  | _ => None
  end.

Definition FragmentInputIndex_of_int (n : Z) : option FragmentInputIndex :=
  match n with
  | 0 => Some FragmentIndexTexture
  | 1 => Some FragmentIndexEraseTexture
  | 2 => Some FragmentIndexClipMaskTexture
  | _ => None
  end.

(** ** The header as C reads it

    Each enumerator of the header carries an explicit [= k]; C gives an
    enumerator without one the value of its predecessor plus one (zero for
    the first).  Enumeration constants have type [int] and share the single
    name space of ordinary identifiers, so a declaration is rejected when a
    value does not fit [int] or an identifier is declared twice. *)

Record enumerator : Set := Enumerator {
  enumerator_name : string;
  enumerator_init : option Z
}.

Record enum_decl : Set := EnumDecl {
  enum_tag : string;
  enum_enumerators : list enumerator
}.

Definition VertexInputIndex_decl : enum_decl :=
  EnumDecl "VertexInputIndex"
    [ Enumerator "VertexInputIndexMatrix"   (Some 0);
      Enumerator "VertexInputIndexVertices" (Some 1);
      Enumerator "VertexTextureMatrix"      (Some 2) ].

Definition FragmentInputIndex_decl : enum_decl :=
  EnumDecl "FragmentInputIndex"
    [ Enumerator "FragmentIndexTexture"         (Some 0);
      Enumerator "FragmentIndexEraseTexture"    (Some 1);
      Enumerator "FragmentIndexClipMaskTexture" (Some 2) ].

Definition metal_bindings_h : list enum_decl :=
  [VertexInputIndex_decl; FragmentInputIndex_decl].

(** An integer representation: signedness and width in bits, the sign bit
    included (two's complement when signed). *)
Record int_repr : Set := IntRepr {
  repr_signed : bool;
  repr_width : Z
}.

Definition repr_min (ir : int_repr) : Z :=
  if repr_signed ir then - 2 ^ (repr_width ir - 1) else 0.

Definition repr_max (ir : int_repr) : Z :=
  if repr_signed ir then 2 ^ (repr_width ir - 1) - 1
  else 2 ^ repr_width ir - 1.

Definition representable (ir : int_repr) (z : Z) : Prop :=
  repr_min ir <= z <= repr_max ir.

Definition representableb (ir : int_repr) (z : Z) : bool :=
  (repr_min ir <=? z) && (z <=? repr_max ir).

(** Storing [z] in the representation and reading it back: reduction modulo
    [2 ^ width], re-centred on zero when signed. *)
Definition store_load (ir : int_repr) (z : Z) : Z :=
  if repr_signed ir
  then (z + 2 ^ (repr_width ir - 1)) mod 2 ^ repr_width ir
       - 2 ^ (repr_width ir - 1)
  else z mod 2 ^ repr_width ir.

(** The narrowest [int] the C standard admits. *)
Definition c_int_least : int_repr := IntRepr true 16.

Definition constant_table : Set := list (string * Z).

Fixpoint lookup_constant (name : string) (tbl : constant_table) : option Z :=
  match tbl with
  | [] => None
  | (n, v) :: tbl' =>
      if String.eqb name n then Some v else lookup_constant name tbl'
  end.

(** Values of the enumerators of one declaration, [next] being the value an
    enumerator without initialiser would take; [None] when the declaration
    is rejected. *)
Fixpoint elaborate_enumerators (int : int_repr) (next : Z)
    (es : list enumerator) (tbl : constant_table) : option constant_table :=
  match es with
  | [] => Some tbl
  | e :: es' =>
      let v := default next (enumerator_init e) in
      if negb (representableb int v) then None
      else match lookup_constant (enumerator_name e) tbl with
           | Some _ => None
           | None =>
               elaborate_enumerators int (v + 1) es'
                 (tbl ++ [(enumerator_name e, v)])%list
           end
  end.

Fixpoint elaborate_header (int : int_repr) (ds : list enum_decl)
    (tbl : constant_table) : option constant_table :=
  match ds with
  | [] => Some tbl
  | d :: ds' =>
      match elaborate_enumerators int 0 (enum_enumerators d) tbl with
      | None => None
      | Some tbl' => elaborate_header int ds' tbl'
      end
  end.

(** The constants the header puts in scope. *)
Definition metal_bindings_constants : option constant_table :=
  elaborate_header c_int_least metal_bindings_h [].

(** ** Binding roles

    A role is a member of one of the two enumerations together with the
    enumeration it belongs to; the stage is the one the header's comment
    names for that enumeration. *)

Inductive ShaderStage : Set := VertexStage | FragmentStage.

Inductive BindingRole : Set :=
| VertexRole (v : VertexInputIndex)
| FragmentRole (f : FragmentInputIndex).

#[global] Instance ShaderStage_eq_dec : EqDecision ShaderStage.
Proof. solve_decision. Defined.

#[global] Instance BindingRole_eq_dec : EqDecision BindingRole.
Proof. solve_decision. Defined.

Definition role_stage (r : BindingRole) : ShaderStage :=
  match r with
  | VertexRole _ => VertexStage
  | FragmentRole _ => FragmentStage
  end.

Definition role_index (r : BindingRole) : Z :=
  match r with
  | VertexRole v => VertexInputIndex_int v
  | FragmentRole f => FragmentInputIndex_int f
  end.

Definition role_name (r : BindingRole) : string :=
  match r with
  | VertexRole v => VertexInputIndex_name v
  | FragmentRole f => FragmentInputIndex_name f
  end.

(** The argument-table entry a role is bound to: the stage's table and the
    index within it. *)
Definition role_slot (r : BindingRole) : ShaderStage * Z :=
  (role_stage r, role_index r).

Definition all_roles : list BindingRole :=
  ((VertexRole <$> enum VertexInputIndex)
   ++ (FragmentRole <$> enum FragmentInputIndex))%list.

(** ** Using the constants

    The header declares no object and no function: the only thing client
    code can do with it is read one of its constants.  Reading is modelled
    over an arbitrary client state, which it threads through. *)

Inductive operation : Set :=
| ReadConstant (r : BindingRole).

Section Evaluation.
Context {World : Type}.

Definition perform (op : operation) (w : World) : Z * World :=
  match op with
  | ReadConstant r => (role_index r, w)
  end.

Fixpoint perform_all (ops : list operation) (w : World) : list Z * World :=
  match ops with
  | [] => ([], w)
  | op :: ops' =>
      let '(z, w1) := perform op w in
      let '(zs, w2) := perform_all ops' w1 in
      (z :: zs, w2)
  end.

End Evaluation.

(** ** The declarations without their initialisers

    The same declaration with every [= k] dropped, so that C numbers the
    enumerators itself. *)

Definition without_initialisers (d : enum_decl) : enum_decl :=
  EnumDecl (enum_tag d)
    ((fun e => Enumerator (enumerator_name e) None) <$> enum_enumerators d).

(** ** Types and binding tables *)

(** Whether two enumeration declarations of the header declare the same
    type: C identifies an enumerated type by its tag, and declarations with
    different tags declare distinct types. *)
Definition same_enum_type (d1 d2 : enum_decl) : bool :=
  String.eqb (enum_tag d1) (enum_tag d2).

Section Binding.
Context {Resource : Type}.

(** Modelled from the spec: the resource bindings of the rendering pipeline,
    kept by the host-side pipeline set-up, which is not part of the header.
    The spec partitions the slots into two independent name spaces,
    vertex-stage inputs and fragment-stage inputs, and calls a slot the
    integer a pipeline stage uses to locate a bound resource: each stage has
    a table of its own, indexed by the integer. *)
Record binding_tables : Type := BindingTables {
  vertex_inputs : gmap Z Resource;
  fragment_inputs : gmap Z Resource
}.

(** Modelled from the spec: binding a resource to a slot of the vertex
    stage (part of the pipeline set-up, not in the header); the slot is
    given as the integer, as a C caller passes an enumerator. *)
Definition bind_vertex_input (i : Z) (x : Resource) (t : binding_tables) :
    binding_tables :=
  BindingTables (<[i := x]> (vertex_inputs t)) (fragment_inputs t).

(** Modelled from the spec: binding a resource to a slot of the fragment
    stage (part of the pipeline set-up, not in the header). *)
Definition bind_fragment_input (i : Z) (x : Resource) (t : binding_tables) :
    binding_tables :=
  BindingTables (vertex_inputs t) (<[i := x]> (fragment_inputs t)).

(** Modelled from the spec: the resource the vertex stage locates at a slot
    (the shader side of the binding, not in the header). *)
Definition vertex_input_at (i : Z) (t : binding_tables) : option Resource :=
  vertex_inputs t !! i.

(** Modelled from the spec: the resource the fragment stage locates at a
    slot (the shader side of the binding, not in the header). *)
Definition fragment_input_at (i : Z) (t : binding_tables) : option Resource :=
  fragment_inputs t !! i.

End Binding.

Arguments binding_tables Resource : clear implicits.

(** ** Basic facts shared by the results below *)

Lemma VertexInputIndex_int_range (v : VertexInputIndex) :
  0 <= VertexInputIndex_int v <= 2.
Proof. destruct v; simpl; lia. Qed.

Lemma FragmentInputIndex_int_range (f : FragmentInputIndex) :
  0 <= FragmentInputIndex_int f <= 2.
Proof. destruct f; simpl; lia. Qed.

Lemma role_index_range (r : BindingRole) : 0 <= role_index r <= 2.
Proof.
  destruct r as [v|f]; simpl;
    [apply VertexInputIndex_int_range | apply FragmentInputIndex_int_range].
Qed.

Lemma VertexInputIndex_of_int_spec (n : Z) (m : VertexInputIndex) :
  VertexInputIndex_of_int n = Some m <-> VertexInputIndex_int m = n.
Proof.
  split.
  - destruct n as [|[[]|[]|]|]; simpl; intros [= <-]; reflexivity.
  - intros <-. destruct m; reflexivity.
Qed.

Lemma FragmentInputIndex_of_int_spec (n : Z) (m : FragmentInputIndex) :
  FragmentInputIndex_of_int n = Some m <-> FragmentInputIndex_int m = n.
Proof.
  split.
  - destruct n as [|[[]|[]|]|]; simpl; intros [= <-]; reflexivity.
  - intros <-. destruct m; reflexivity.
Qed.

#[global] Instance VertexInputIndex_int_inj : Inj (=) (=) VertexInputIndex_int.
Proof.
  intros a b Hab.
  apply (proj2 (VertexInputIndex_of_int_spec _ a)) in Hab.
  rewrite (proj2 (VertexInputIndex_of_int_spec _ b) eq_refl) in Hab.
  congruence.
Qed.

#[global] Instance FragmentInputIndex_int_inj :
  Inj (=) (=) FragmentInputIndex_int.
Proof.
  intros a b Hab.
  apply (proj2 (FragmentInputIndex_of_int_spec _ a)) in Hab.
  rewrite (proj2 (FragmentInputIndex_of_int_spec _ b) eq_refl) in Hab.
  congruence.
Qed.

Lemma role_slot_inj (r1 r2 : BindingRole) :
  role_slot r1 = role_slot r2 -> r1 = r2.
Proof.
  unfold role_slot.
  destruct r1 as [v1|f1], r2 as [v2|f2]; simpl; intros [= H];
    try discriminate; f_equal; revert H; apply (inj _).
Qed.

Lemma pow2_ge_4 (w : Z) : 2 <= w -> 4 <= 2 ^ w.
Proof.
  intros Hw. change 4 with (2 ^ 2). apply Z.pow_le_mono_r; lia.
Qed.

Lemma store_load_representable (ir : int_repr) (z : Z) :
  1 <= repr_width ir -> representable ir z -> store_load ir z = z.
Proof.
  unfold representable, repr_min, repr_max, store_load.
  intros Hw. destruct (repr_signed ir); intros Hz.
  - assert (H2 : 2 ^ repr_width ir = 2 * 2 ^ (repr_width ir - 1)).
    { rewrite <- Z.pow_succ_r by lia. f_equal. lia. }
    rewrite Z.mod_small by lia. lia.
  - apply Z.mod_small. lia.
Qed.

Lemma perform_all_world {World : Type} (ops : list operation) (w : World) :
  (perform_all ops w).2 = w.
Proof.
  revert w. induction ops as [|[r] ops IH]; intros w; simpl; [reflexivity|].
  specialize (IH w). destruct (perform_all ops w) as [zs w2]. exact IH.
Qed.

Lemma perform_all_results {World : Type} (ops : list operation) (w : World) :
  (perform_all ops w).1
  = (fun op => match op with ReadConstant r => role_index r end) <$> ops.
Proof.
  revert w. induction ops as [|[r] ops IH]; intros w; simpl; [reflexivity|].
  specialize (IH w). destruct (perform_all ops w) as [zs w2].
  simpl in *. f_equal. exact IH.
Qed.

(** ** The slot values *)

(** C1: the three vertex-stage constants have the values of the interface
    table: VertexInputIndexMatrix is 0, VertexInputIndexVertices is 1 and
    VertexTextureMatrix is 2; these are also the values C computes from the
    enumerators of the declaration. *)
Theorem vertex_binding_values :
  VertexInputIndex_int VertexInputIndexMatrix = 0
  /\ VertexInputIndex_int VertexInputIndexVertices = 1
  /\ VertexInputIndex_int VertexTextureMatrix = 2
  /\ elaborate_enumerators c_int_least 0
       (enum_enumerators VertexInputIndex_decl) []
     = Some ((fun v => (VertexInputIndex_name v, VertexInputIndex_int v))
             <$> enum VertexInputIndex).
Proof. repeat split. Qed.

(** C2: the three fragment-stage constants have the values of the interface
    table: FragmentIndexTexture is 0, FragmentIndexEraseTexture is 1 and
    FragmentIndexClipMaskTexture is 2; these are also the values C computes
    from the enumerators of the declaration. *)
Theorem fragment_binding_values :
  FragmentInputIndex_int FragmentIndexTexture = 0
  /\ FragmentInputIndex_int FragmentIndexEraseTexture = 1
  /\ FragmentInputIndex_int FragmentIndexClipMaskTexture = 2
  /\ elaborate_enumerators c_int_least 0
       (enum_enumerators FragmentInputIndex_decl) []
     = Some ((fun f => (FragmentInputIndex_name f, FragmentInputIndex_int f))
             <$> enum FragmentInputIndex).
Proof. repeat split. Qed.

Lemma VertexInputIndex_values_range (z : Z) :
  z ∈ VertexInputIndex_values <-> 0 <= z <= 2.
Proof.
  unfold VertexInputIndex_values, VertexInputIndex_slots.
  rewrite elem_of_list_to_set. simpl.
  rewrite !elem_of_cons, elem_of_nil. lia.
Qed.

Lemma FragmentInputIndex_values_range (z : Z) :
  z ∈ FragmentInputIndex_values <-> 0 <= z <= 2.
Proof.
  unfold FragmentInputIndex_values, FragmentInputIndex_slots.
  rewrite elem_of_list_to_set. simpl.
  rewrite !elem_of_cons, elem_of_nil. lia.
Qed.

(** C3: in each of the two enumerations the assigned slot values have no
    duplicates, and the set of them is the contiguous range from 0 to
    count - 1, count being the number of members of the enumeration, which
    is 3: each set is exactly {0, 1, 2}. *)
Theorem slots_unique_and_contiguous :
  (NoDup VertexInputIndex_slots
   /\ card VertexInputIndex = 3%nat
   /\ (forall z : Z, z ∈ VertexInputIndex_values
                     <-> 0 <= z <= Z.of_nat (card VertexInputIndex) - 1)
   /\ VertexInputIndex_values = {[ 0; 1; 2 ]})
  /\
  (NoDup FragmentInputIndex_slots
   /\ card FragmentInputIndex = 3%nat
   /\ (forall z : Z, z ∈ FragmentInputIndex_values
                     <-> 0 <= z <= Z.of_nat (card FragmentInputIndex) - 1)
   /\ FragmentInputIndex_values = {[ 0; 1; 2 ]}).
Proof.
  split; (split; [|split; [reflexivity|split]]).
  - apply (NoDup_fmap_2 _), NoDup_enum.
  - intros z. rewrite VertexInputIndex_values_range.
    change (card VertexInputIndex) with 3%nat. lia.
  - apply set_eq. intros z. rewrite VertexInputIndex_values_range.
    rewrite !elem_of_union, !elem_of_singleton. lia.
  - apply (NoDup_fmap_2 _), NoDup_enum.
  - intros z. rewrite FragmentInputIndex_values_range.
    change (card FragmentInputIndex) with 3%nat. lia.
  - apply set_eq. intros z. rewrite FragmentInputIndex_values_range.
    rewrite !elem_of_union, !elem_of_singleton. lia.
Qed.

(** ** The two name spaces *)

Lemma vertex_inputs_separate {Resource : Type}
    (t : binding_tables Resource) (v1 v2 : VertexInputIndex) (x : Resource) :
  v1 <> v2 ->
  vertex_input_at (VertexInputIndex_int v2)
    (bind_vertex_input (VertexInputIndex_int v1) x t)
  = vertex_input_at (VertexInputIndex_int v2) t.
Proof.
  intros Hne. unfold vertex_input_at, bind_vertex_input. simpl.
  apply lookup_insert_ne. intros Heq. apply Hne. revert Heq. apply (inj _).
Qed.

Lemma fragment_inputs_separate {Resource : Type}
    (t : binding_tables Resource) (f1 f2 : FragmentInputIndex)
    (x : Resource) :
  f1 <> f2 ->
  fragment_input_at (FragmentInputIndex_int f2)
    (bind_fragment_input (FragmentInputIndex_int f1) x t)
  = fragment_input_at (FragmentInputIndex_int f2) t.
Proof.
  intros Hne. unfold fragment_input_at, bind_fragment_input. simpl.
  apply lookup_insert_ne. intros Heq. apply Hne. revert Heq. apply (inj _).
Qed.

(** C4: the vertex-stage and fragment-stage name spaces are independent.
    The two declarations carry different tags, so VertexInputIndex and
    FragmentInputIndex are distinct types.  VertexInputIndexMatrix and
    FragmentIndexTexture have the same integer value, 0, yet they are not
    the same resource slot: with the binding tables modelled from the spec,
    a resource bound at a vertex constant and another bound at a fragment
    constant are both retained, whatever the two constants; binding at a
    constant of one stage changes nothing the other stage locates; and
    within a stage, binding at one member changes nothing another member
    locates. *)
Theorem namespaces_independent :
  same_enum_type VertexInputIndex_decl FragmentInputIndex_decl = false
  /\ VertexInputIndex_int VertexInputIndexMatrix
     = FragmentInputIndex_int FragmentIndexTexture
  /\ (forall (Resource : Type) (t : binding_tables Resource)
             (v : VertexInputIndex) (f : FragmentInputIndex)
             (x y : Resource),
        vertex_input_at (VertexInputIndex_int v)
          (bind_fragment_input (FragmentInputIndex_int f) y
             (bind_vertex_input (VertexInputIndex_int v) x t)) = Some x
        /\ fragment_input_at (FragmentInputIndex_int f)
             (bind_fragment_input (FragmentInputIndex_int f) y
                (bind_vertex_input (VertexInputIndex_int v) x t)) = Some y
        /\ fragment_input_at (FragmentInputIndex_int f)
             (bind_vertex_input (VertexInputIndex_int v) x t)
           = fragment_input_at (FragmentInputIndex_int f) t
        /\ vertex_input_at (VertexInputIndex_int v)
             (bind_fragment_input (FragmentInputIndex_int f) y t)
           = vertex_input_at (VertexInputIndex_int v) t)
  /\ (forall (Resource : Type) (t : binding_tables Resource)
             (v1 v2 : VertexInputIndex) (x : Resource),
        v1 <> v2 ->
        vertex_input_at (VertexInputIndex_int v2)
          (bind_vertex_input (VertexInputIndex_int v1) x t)
        = vertex_input_at (VertexInputIndex_int v2) t)
  /\ (forall (Resource : Type) (t : binding_tables Resource)
             (f1 f2 : FragmentInputIndex) (x : Resource),
        f1 <> f2 ->
        fragment_input_at (FragmentInputIndex_int f2)
          (bind_fragment_input (FragmentInputIndex_int f1) x t)
        = fragment_input_at (FragmentInputIndex_int f2) t).
Proof.
  split; [reflexivity|]. split; [reflexivity|]. split; [|split].
  - intros Resource t v f x y.
    unfold vertex_input_at, fragment_input_at, bind_vertex_input,
      bind_fragment_input. simpl.
    rewrite !lookup_insert_eq. repeat split.
  - intros Resource t v1 v2 x. apply vertex_inputs_separate.
  - intros Resource t f1 f2 x. apply fragment_inputs_separate.
Qed.

(** C10: the two enumerations have the same set of values, {0, 1, 2}, so
    every integer that is a binding index names a vertex role and a fragment
    role alike, and the index alone does not determine the role; the stage
    together with the index does. *)
Theorem value_sets_coincide :
  VertexInputIndex_values = FragmentInputIndex_values
  /\ VertexInputIndex_values = {[ 0; 1; 2 ]}
  /\ (forall z : Z, z ∈ VertexInputIndex_values ->
        exists (v : VertexInputIndex) (f : FragmentInputIndex),
          role_index (VertexRole v) = z /\ role_index (FragmentRole f) = z
          /\ role_stage (VertexRole v) <> role_stage (FragmentRole f))
  /\ ~ Inj (=) (=) role_index
  /\ (forall r1 r2 : BindingRole,
        role_stage r1 = role_stage r2 -> role_index r1 = role_index r2 ->
        r1 = r2).
Proof.
  split; [reflexivity|split; [|split; [|split]]].
  - apply set_eq. intros z. rewrite VertexInputIndex_values_range.
    rewrite !elem_of_union, !elem_of_singleton. lia.
  - intros z Hz. apply VertexInputIndex_values_range in Hz.
    assert (Hc : z = 0 \/ z = 1 \/ z = 2) by lia.
    destruct Hc as [->|[->| ->]].
    + exists VertexInputIndexMatrix, FragmentIndexTexture.
      repeat split; discriminate.
    + exists VertexInputIndexVertices, FragmentIndexEraseTexture.
      repeat split; discriminate.
    + exists VertexTextureMatrix, FragmentIndexClipMaskTexture.
      repeat split; discriminate.
  - intros Hinj.
    specialize (Hinj (VertexRole VertexInputIndexMatrix)
                     (FragmentRole FragmentIndexTexture) eq_refl).
    discriminate.
  - intros r1 r2 Hs Hi. apply role_slot_inj. unfold role_slot. congruence.
Qed.

(** ** Order and inverse *)

(** C8: within each enumeration the values increase strictly in declaration
    order: VertexInputIndexMatrix < VertexInputIndexVertices <
    VertexTextureMatrix and FragmentIndexTexture < FragmentIndexEraseTexture
    < FragmentIndexClipMaskTexture; a member is declared before another
    exactly when its value is the smaller one. *)
Theorem declaration_order_is_numeric_order :
  VertexInputIndex_int VertexInputIndexMatrix
    < VertexInputIndex_int VertexInputIndexVertices
    < VertexInputIndex_int VertexTextureMatrix
  /\ FragmentInputIndex_int FragmentIndexTexture
       < FragmentInputIndex_int FragmentIndexEraseTexture
       < FragmentInputIndex_int FragmentIndexClipMaskTexture
  /\ (forall a b : VertexInputIndex,
        (decl_position a (enum VertexInputIndex)
         < decl_position b (enum VertexInputIndex))%nat
        <-> VertexInputIndex_int a < VertexInputIndex_int b)
  /\ (forall a b : FragmentInputIndex,
        (decl_position a (enum FragmentInputIndex)
         < decl_position b (enum FragmentInputIndex))%nat
        <-> FragmentInputIndex_int a < FragmentInputIndex_int b).
Proof.
  split; [simpl; lia|split; [simpl; lia|split]].
  - intros [] []; vm_compute; split; intros H;
      first [reflexivity | discriminate H | lia].
  - intros [] []; vm_compute; split; intros H;
      first [reflexivity | discriminate H | lia].
Qed.

(** C9: within each enumeration the member-to-value mapping is injective,
    and converting a member to its integer and back yields the member
    again; on the integers that name a member the two conversions are
    inverse to each other. *)
Theorem enum_int_round_trip :
  (forall m : VertexInputIndex,
      VertexInputIndex_of_int (VertexInputIndex_int m) = Some m)
  /\ (forall m : FragmentInputIndex,
        FragmentInputIndex_of_int (FragmentInputIndex_int m) = Some m)
  /\ Inj (=) (=) VertexInputIndex_int
  /\ Inj (=) (=) FragmentInputIndex_int
  /\ (forall (n : Z) (m : VertexInputIndex),
        VertexInputIndex_of_int n = Some m -> VertexInputIndex_int m = n)
  /\ (forall (n : Z) (m : FragmentInputIndex),
        FragmentInputIndex_of_int n = Some m -> FragmentInputIndex_int m = n).
Proof.
  repeat split.
  - intros []; reflexivity.
  - intros []; reflexivity.
  - apply VertexInputIndex_int_inj.
  - apply FragmentInputIndex_int_inj.
  - intros n m. apply VertexInputIndex_of_int_spec.
  - intros n m. apply FragmentInputIndex_of_int_spec.
Qed.

(** ** Reading the constants *)

Lemma lookup_role_constant (r : BindingRole) :
  metal_bindings_constants ≫= lookup_constant (role_name r)
  = Some (role_index r).
Proof. destruct r as [[]|[]]; reflexivity. Qed.

(** C5: nothing the header offers can fail: the declarations are accepted
    and put exactly the six constants in scope, looking up any of the six
    names yields a value (never the error case) that is fixed by the
    declarations alone, and reading a constant returns a plain integer and
    leaves the client state as it was. *)
Theorem constant_lookup_never_fails :
  metal_bindings_constants
  = Some ((fun r => (role_name r, role_index r)) <$> all_roles)
  /\ length all_roles = 6%nat
  /\ (forall r : BindingRole,
        r ∈ all_roles
        /\ metal_bindings_constants ≫= lookup_constant (role_name r)
           = Some (role_index r))
  /\ (forall (World : Type) (r : BindingRole) (w : World),
        perform (ReadConstant r) w = (role_index r, w)
        /\ representable c_int_least (role_index r)).
Proof.
  split; [reflexivity|]. split; [reflexivity|]. split.
  - intros r. split; [|apply lookup_role_constant].
    destruct r as [[]|[]]; compute_done.
  - intros World r w. split; [reflexivity|].
    pose proof (role_index_range r). unfold representable.
    change (repr_min c_int_least) with (-32768).
    change (repr_max c_int_least) with 32767. lia.
Qed.

(** C7: the constants are immutable and deterministic: a constant read in
    any two client states, of the same run or of different ones, has the
    same value; no operation changes the state it is performed in, so a
    constant read after any sequence of operations has the value it had
    before; and two reads of one constant at any two points of a run return
    the same integer. *)
Theorem constants_immutable_and_deterministic :
  (forall (W1 W2 : Type) (w1 : W1) (w2 : W2) (r : BindingRole),
      (perform (ReadConstant r) w1).1 = (perform (ReadConstant r) w2).1)
  /\ (forall (World : Type) (ops : list operation) (w : World)
             (r : BindingRole),
        (perform_all ops w).2 = w
        /\ (perform (ReadConstant r) (perform_all ops w).2).1
           = (perform (ReadConstant r) w).1)
  /\ (forall (World : Type) (ops : list operation) (w : World)
             (i j : nat) (r : BindingRole),
        ops !! i = Some (ReadConstant r) ->
        ops !! j = Some (ReadConstant r) ->
        (perform_all ops w).1 !! i = Some (role_index r)
        /\ (perform_all ops w).1 !! i = (perform_all ops w).1 !! j).
Proof.
  split; [reflexivity|split].
  - intros World ops w r. split; [apply perform_all_world|reflexivity].
  - intros World ops w i j r Hi Hj.
    rewrite perform_all_results, !list_lookup_fmap, Hi, Hj. split; reflexivity.
Qed.

(** ** Integer representations *)

(** C6, as stated, fails on a signed representation of width 2: its range
    is -2 .. 1, so VertexTextureMatrix = 2 is not representable there and
    reads back as -2. *)
Lemma signed_width_2_loses_slot_2 :
  2 <= repr_width (IntRepr true 2)
  /\ role_index (VertexRole VertexTextureMatrix) = 2
  /\ ~ representable (IntRepr true 2)
        (role_index (VertexRole VertexTextureMatrix))
  /\ store_load (IntRepr true 2)
       (role_index (VertexRole VertexTextureMatrix)) = -2.
Proof.
  split; [simpl; lia|]. split; [reflexivity|]. split; [|reflexivity].
  unfold representable.
  change (repr_max (IntRepr true 2)) with 1.
  change (role_index (VertexRole VertexTextureMatrix)) with 2. lia.
Qed.

(** C6 (amended): each of the six constants lies between 0 and 2, so it is
    exactly representable, and survives being stored and read back, in every
    unsigned representation of width at least 2 bits and in every signed
    (two's complement) representation of width at least 3 bits. *)
Theorem binding_values_small (r : BindingRole) (ir : int_repr) :
  (if repr_signed ir then 3 else 2) <= repr_width ir ->
  0 <= role_index r <= 2
  /\ representable ir (role_index r)
  /\ store_load ir (role_index r) = role_index r.
Proof.
  intros Hw. pose proof (role_index_range r) as Hr.
  assert (Hrep : representable ir (role_index r)).
  { unfold representable, repr_min, repr_max.
    destruct (repr_signed ir).
    - pose proof (pow2_ge_4 (repr_width ir - 1)). lia.
    - pose proof (pow2_ge_4 (repr_width ir)). lia. }
  split; [exact Hr|]. split; [exact Hrep|].
  apply store_load_representable; [destruct (repr_signed ir); lia|exact Hrep].
Qed.

Lemma binding_values_small_witness :
  (if repr_signed (IntRepr true 3) then 3 else 2)
    <= repr_width (IntRepr true 3)
  /\ (0 <= role_index (VertexRole VertexTextureMatrix) <= 2
      /\ representable (IntRepr true 3)
           (role_index (VertexRole VertexTextureMatrix))
      /\ store_load (IntRepr true 3)
           (role_index (VertexRole VertexTextureMatrix))
         = role_index (VertexRole VertexTextureMatrix)).
Proof.
  split; [simpl; lia|].
  apply (binding_values_small (VertexRole VertexTextureMatrix)
           (IntRepr true 3)).
  simpl; lia.
Defined.

(** ** Further properties of the declarations *)

(** X1: the six enumerator identifiers are pairwise distinct, across the two
    enumerations as well as within each, so an identifier names one role
    only. *)
Theorem enumerator_names_distinct :
  NoDup (role_name <$> all_roles)
  /\ (forall r1 r2 : BindingRole, role_name r1 = role_name r2 -> r1 = r2).
Proof.
  split; [compute_done|].
  intros [[]|[]] [[]|[]] H; first [reflexivity | discriminate H].
Qed.

(** X2: the header puts the six constants in scope and nothing else: an
    identifier looks up to a value exactly when it is the name of a role
    with that value, and an identifier that names no role is not found. *)
Theorem declared_constants_exact :
  (forall (name : string) (z : Z),
      metal_bindings_constants ≫= lookup_constant name = Some z
      <-> exists r : BindingRole, role_name r = name /\ role_index r = z)
  /\ (forall name : string,
        (forall r : BindingRole, role_name r <> name) ->
        metal_bindings_constants ≫= lookup_constant name = None).
Proof.
  assert (Hfwd : forall name z,
             metal_bindings_constants ≫= lookup_constant name = Some z ->
             exists r, role_name r = name /\ role_index r = z).
  { intros name z.
    change metal_bindings_constants
      with (Some ((fun r => (role_name r, role_index r)) <$> all_roles)).
    simpl.
    repeat (match goal with
            | |- context [String.eqb name ?n] =>
                destruct (String.eqb_spec name n) as [->|_]
            end;
            [intros [= <-];
             first [ exists (VertexRole VertexInputIndexMatrix); done
                   | exists (VertexRole VertexInputIndexVertices); done
                   | exists (VertexRole VertexTextureMatrix); done
                   | exists (FragmentRole FragmentIndexTexture); done
                   | exists (FragmentRole FragmentIndexEraseTexture); done
                   | exists (FragmentRole FragmentIndexClipMaskTexture);
                     done ]
            |]).
    discriminate. }
  split.
  - intros name z. split; [apply Hfwd|].
    intros (r & <- & <-). apply lookup_role_constant.
  - intros name Hnone.
    destruct (metal_bindings_constants ≫= lookup_constant name) as [z|] eqn:E;
      [|reflexivity].
    apply Hfwd in E as (r & Hr & _). destruct (Hnone r Hr).
Qed.

(** X3: the explicit initialisers agree with the numbering C assigns by
    itself: with every [= k] dropped, the header declares the same constants
    with the same values, whatever the width of [int]. *)
Theorem explicit_initialisers_redundant (int : int_repr) :
  elaborate_header int (without_initialisers <$> metal_bindings_h) []
  = elaborate_header int metal_bindings_h [].
Proof. reflexivity. Qed.

Lemma representableb_small (int : int_repr) (z : Z) :
  (if repr_signed int then 3 else 2) <= repr_width int ->
  0 <= z <= 2 -> representableb int z = true.
Proof.
  intros Hw Hz. unfold representableb, repr_min, repr_max.
  apply andb_true_iff. rewrite !Z.leb_le.
  destruct (repr_signed int).
  - pose proof (pow2_ge_4 (repr_width int - 1)). lia.
  - pose proof (pow2_ge_4 (repr_width int)). lia.
Qed.

(** X4: the constants do not depend on the implementation's [int]: for
    every signed [int] of at least 3 bits, and every unsigned one of at
    least 2, the header is accepted and declares the same six constants
    with the same values. *)
Theorem constants_independent_of_int_width (int : int_repr) :
  (if repr_signed int then 3 else 2) <= repr_width int ->
  elaborate_header int metal_bindings_h [] = metal_bindings_constants.
Proof.
  intros Hw.
  pose proof (representableb_small int 0 Hw ltac:(lia)) as H0.
  pose proof (representableb_small int 1 Hw ltac:(lia)) as H1.
  pose proof (representableb_small int 2 Hw ltac:(lia)) as H2.
  change metal_bindings_constants
    with (Some ((fun r => (role_name r, role_index r)) <$> all_roles)).
  unfold metal_bindings_h, VertexInputIndex_decl, FragmentInputIndex_decl.
  cbn -[representableb].
  rewrite ?H0, ?H1, ?H2. cbn -[representableb].
  rewrite ?H0, ?H1, ?H2. reflexivity.
Qed.

Lemma constants_independent_of_int_width_witness :
  (if repr_signed (IntRepr true 32) then 3 else 2)
    <= repr_width (IntRepr true 32)
  /\ elaborate_header (IntRepr true 32) metal_bindings_h []
     = metal_bindings_constants.
Proof.
  split; [simpl; lia|].
  apply (constants_independent_of_int_width (IntRepr true 32)).
  simpl; lia.
Defined.
